(** * Kalshi-Quant-TeleBot: position-sized trade execution

    A shallow embedding of [src/trader.py] (class [Trader]) and of the
    driver loop of [src/main.py], with the properties of the trading
    core stated and proved over it.

    Modelling conventions.
    - Python numbers that hold money (bankroll, prices, the configured
      fraction) are exact rationals [Q]: Python's binary floating point
      is idealised, so rounding error is outside this development.
      Quantities and positions are integers [Z].
    - The dictionaries the code receives are typed as the data model
      describes them: a trade decision has a string [event_id] and
      [action], an integer [quantity] and a numeric [price]; a market
      record has an optional string [id] and an optional numeric
      [current_price] (what [dict.get] returns; [None] stands for a
      missing key as well as for a null value).
    - The collaborators are recorded by their call histories: the
      logger and the notifier by the list of calls made on them (most
      recent first), the market API by the number of fetches.  The
      logger never raises; the notifier and the API may raise, as an
      oracle says.
    - Formatted messages are kept structured instead of rendered to
      text. *)

From Stdlib Require Import ZArith QArith Qround Lia Lqa String List.
From stdpp Require Import gmap strings.

Local Open Scope Z_scope.

(** ** Python arithmetic on the idealised numbers *)

(** [int(x)] on a float: truncation toward zero. *)
Definition py_int (x : Q) : Z := Z.quot (Qnum x) (Z.pos (Qden x)).

(** [a > b]. *)
Definition py_gt (a b : Q) : bool := negb (Qle_bool a b).

(** [x == 0], the test behind [ZeroDivisionError] and behind the
    truth value of a number. *)
Definition py_is_zero (x : Q) : bool := Qeq_bool x 0.

(** ** Exceptions and completions *)

(** The exceptions that can arise in the modelled code: the division
    of the sizing step, and whatever a collaborator (notifier, market
    API) raises, identified by its text.  All are subclasses of
    [Exception]. *)
Inductive exn : Type :=
| ZeroDivisionError
| CollaboratorError (text : string).

(** How a procedure that returns [None] ends. *)
Inductive completion : Type :=
| Returned
| Raised (e : exn).

(** ** Log entries and notifications *)

Inductive level : Type := INFO | WARNING | ERROR.

Inductive message : Type :=
| Text (s : string)
    (* a literal message *)
| ExceedsMaxPositionSize (value max_trade_value : Q)
    (* "Trade value ({value}) exceeds max position size ({max}). Adjusting quantity." *)
| ExecutingTrade (action event_id : string) (price : Q) (quantity : Z)
    (* "Executing {action} trade for event {event_id} at price {price} for {quantity} units." *)
| ErrorExecutingTrade (event_id : string) (e : exn)
    (* "Error executing trade for {event_id}: {e}" *)
| AnErrorOccurred (e : exn).
    (* "An error occurred: {e}" *)

Inductive verb : Type := Bought | Sold.

(** What [send_error_notification] is called with. *)
Inductive error_message : Type :=
| TradeExecutionError (event_id : string) (e : exn)
    (* f"Trade execution error for {event_id}: {e}" *)
| ErrorText (e : exn).
    (* str(e) *)

(** A call on the notifier. *)
Inductive notification : Type :=
| TradeNotification (v : verb) (quantity : Z) (event_id : string) (price : Q)
    (* send_trade_notification(f"{Bought|Sold} {quantity} units of {event_id} at {price}.") *)
| ErrorNotification (m : error_message).
    (* send_error_notification(m) *)

Definition is_trade_notification (n : notification) : bool :=
  match n with TradeNotification _ _ _ _ => true | _ => false end.

(** ** Data model *)

(** The dictionary built by [_make_trade_decision] and read by
    [execute_trade]. *)
Record trade_decision : Type := {
  event_id : string;
  action : string;
  quantity : Z;
  price : Q
}.

(** One element of [market_data['markets']], seen through
    [market.get('id')] and [market.get('current_price')]. *)
Module Market.
Record t : Type := { id : option string; current_price : option Q }.
End Market.

(** [self] of class [Trader]. *)
Record Trader : Type := {
  api : nat;                          (* fetches made so far *)
  notifier : list notification;       (* calls made, latest first *)
  logger : list (level * message);    (* entries written, latest first *)
  bankroll : Q;
  current_positions : gmap string Z
}.

Definition log (l : level) (m : message) (t : Trader) : Trader :=
  {| api := api t; notifier := notifier t; logger := (l, m) :: logger t;
     bankroll := bankroll t; current_positions := current_positions t |}.

(** [self.current_positions.get(event_id, 0)]. *)
Definition get_position (t : Trader) (k : string) : Z :=
  default 0 (current_positions t !! k).

(** [self.current_positions[event_id] = v]. *)
Definition set_position (k : string) (v : Z) (t : Trader) : Trader :=
  {| api := api t; notifier := notifier t; logger := logger t;
     bankroll := bankroll t;
     current_positions := <[k := v]> (current_positions t) |}.

Section TraderCore.

(** [config.MAX_POSITION_SIZE_PERCENTAGE].  [config.py] is not among the
    sources, so the constant is a parameter; the configuration lists it
    as a fraction of the bankroll between 0 and 1, and the tests speak
    of a 10% limit.  Properties that depend on its sign say so. *)
Variable MAX_POSITION_SIZE_PERCENTAGE : Q.

(** The notifier as an oracle: given the calls made before and the
    call being made, the exception it raises, if any. *)
Variable notifier_raises : list notification -> notification -> option exn.

(** A call on the notifier: recorded, then it returns or raises. *)
Definition notifier_call (n : notification) (t : Trader) : Trader * completion :=
  ({| api := api t; notifier := n :: notifier t; logger := logger t;
      bankroll := bankroll t; current_positions := current_positions t |},
   match notifier_raises (notifier t) n with
   | Some e => Raised e
   | None => Returned
   end).

Definition send_trade_notification (v : verb) (quantity : Z)
    (event_id : string) (price : Q) : Trader -> Trader * completion :=
  notifier_call (TradeNotification v quantity event_id price).

Definition send_error_notification (m : error_message)
    : Trader -> Trader * completion :=
  notifier_call (ErrorNotification m).

(** *** [Trader.execute_trade], lines 42-49: position sizing *)

Inductive sizing : Type :=
| Proceed (t : Trader) (quantity : Z)   (* falls through to the try block *)
| Skipped (t : Trader)                  (* the early [return] of line 49 *)
| Failed (t : Trader) (e : exn).        (* an exception, outside any try *)

Definition position_sizing (t : Trader) (quantity : Z) (price : Q) : sizing :=
  let max_trade_value := (bankroll t * MAX_POSITION_SIZE_PERCENTAGE)%Q in
  if py_gt (inject_Z quantity * price) max_trade_value then
    let t := log WARNING
               (ExceedsMaxPositionSize (inject_Z quantity * price) max_trade_value) t in
    if py_is_zero price then Failed t ZeroDivisionError
    else
      let quantity := py_int (max_trade_value / price) in
      if quantity =? 0 then
        Skipped (log WARNING (Text "Adjusted quantity is zero. Skipping trade.") t)
      else Proceed t quantity
  else Proceed t quantity.

(** *** Lines 52-69: the body of the try block *)

(** The stop-loss placeholder of lines 66-69: the condition is
    evaluated and the branch is [pass]. *)
Definition stop_loss (event_id : string) (t : Trader) : Trader :=
  if bool_decide (is_Some (current_positions t !! event_id))
     && (0 <? get_position t event_id)
  then t else t.

Definition try_body (t : Trader) (event_id action : string)
    (quantity : Z) (price : Q) : Trader * completion :=
  if (action =? "buy")%string then
    let t := log INFO (ExecutingTrade "buy" event_id price quantity) t in
    let t := set_position event_id (get_position t event_id + quantity) t in
    match send_trade_notification Bought quantity event_id price t with
    | (t, Returned) => (stop_loss event_id t, Returned)
    | (t, Raised e) => (t, Raised e)
    end
  else if (action =? "sell")%string then
    let t := log INFO (ExecutingTrade "sell" event_id price quantity) t in
    let t := set_position event_id (get_position t event_id - quantity) t in
    match send_trade_notification Sold quantity event_id price t with
    | (t, Returned) => (stop_loss event_id t, Returned)
    | (t, Raised e) => (t, Raised e)
    end
  else (stop_loss event_id t, Returned).

(** *** [Trader.execute_trade] *)

Definition execute_trade (t : Trader) (trade_decision : option trade_decision)
    : Trader * completion :=
  match trade_decision with
  | None => (log INFO (Text "No trade decision to execute.") t, Returned)
  | Some d =>
    let event_id := event_id d in
    let action := action d in
    let price := price d in
    match position_sizing t (quantity d) price with
    | Failed t e => (t, Raised e)
    | Skipped t => (t, Returned)
    | Proceed t quantity =>
      match try_body t event_id action quantity price with
      | (t, Returned) => (t, Returned)
      | (t, Raised e) =>
        (* except Exception as e *)
        let t := log ERROR (ErrorExecutingTrade event_id e) t in
        send_error_notification (TradeExecutionError event_id e) t
      end
    end
  end.

(** *** [Trader._make_trade_decision] *)

(** The truth value of what [market.get] returned: [None], the empty
    string and zero are false. *)
Definition truthy_id (o : option string) : bool :=
  match o with
  | Some s => negb (s =? "")%string
  | None => false
  end.

Definition truthy_price (o : option Q) : bool :=
  match o with
  | Some p => negb (py_is_zero p)
  | None => false
  end.

(** The truth value of a dictionary: it has at least one key. *)
Definition truthy_dict (md : gmap string (list Market.t)) : bool :=
  negb (bool_decide (md = ∅)).

(** [market_data] is [None] or a dictionary whose ['markets'] entry,
    when present, is a list of market records. *)
Definition _make_trade_decision (t : Trader)
    (market_data : option (gmap string (list Market.t)))
    : Trader * option trade_decision :=
  let t := log INFO (Text "Making a placeholder trade decision.") t in
  (t,
   match market_data with
   | Some md =>
     if truthy_dict md then
       match md !! "markets" with
       | Some (market :: _) =>
         let event_id := Market.id market in
         let current_price := Market.current_price market in
         if truthy_id event_id && truthy_price current_price then
           match event_id, current_price with
           | Some event_id, Some current_price =>
             Some {| event_id := event_id; action := "buy"; quantity := 1;
                     price := current_price |}
           | _, _ => None   (* not reached: both are true values *)
           end
         else None
       | _ => None
       end
     else None
   | None => None
   end).

Definition analyze_market := _make_trade_decision.

(** *** [Trader.run_trading_strategy] *)

(** The market API as an oracle: what the fetch numbered [n] (from 0)
    gives, a snapshot or an exception. *)
Variable fetch_market_data :
  nat -> option (gmap string (list Market.t)) + exn.

Definition run_trading_strategy (t : Trader) : Trader * completion :=
  let n := api t in
  let t := {| api := S n; notifier := notifier t; logger := logger t;
              bankroll := bankroll t;
              current_positions := current_positions t |} in
  match fetch_market_data n with
  | inr e => (t, Raised e)
  | inl market_data =>
    if match market_data with Some md => truthy_dict md | None => false end
    then
      let (t, trade_decision) := _make_trade_decision t market_data in
      match trade_decision with
      | Some _ => execute_trade t trade_decision
      | None =>
        (log INFO (Text "No profitable trade opportunity found.") t, Returned)
      end
    else (log INFO (Text "No market data fetched.") t, Returned)
  end.

(** *** [main] of [src/main.py] *)

(** [config.BANKROLL], a parameter like the fraction above. *)
Variable BANKROLL : Q.

(** One turn of [while True]: the log line, the strategy, then
    [time.sleep], which only lets time pass. *)
Definition cycle (t : Trader) : Trader * completion :=
  run_trading_strategy (log INFO (Text "Running trading strategy") t).

(** The loop, run for at most [fuel] turns.  [Some e]: the exception
    [e] left the loop; [None]: the loop is still turning. *)
Fixpoint trading_loop (fuel : nat) (t : Trader) : Trader * option exn :=
  match fuel with
  | O => (t, None)
  | S fuel =>
    match cycle t with
    | (t, Raised e) => (t, Some e)
    | (t, Returned) => trading_loop fuel t
    end
  end.

(** The trader [main] constructs, after its first log line.  The
    constructors of the collaborators are taken to succeed. *)
Definition initial_trader : Trader :=
  {| api := O; notifier := [];
     logger := [(INFO, Text "Starting Kalshi Trading Bot")];
     bankroll := BANKROLL; current_positions := ∅ |}.

(** The handler of the outermost try. *)
Definition top_level_handler (t : Trader) (e : exn) : Trader * completion :=
  send_error_notification (ErrorText e) (log ERROR (AnErrorOccurred e) t).

Inductive main_result : Type :=
| StillRunning                  (* the fuel ran out inside the loop *)
| Exited                        (* the handler ran and main returned *)
| Crashed (e : exn).            (* the handler itself raised *)

Definition main (fuel : nat) : Trader * main_result :=
  match trading_loop fuel initial_trader with
  | (t, None) => (t, StillRunning)
  | (t, Some e) =>
    match top_level_handler t e with
    | (t, Returned) => (t, Exited)
    | (t, Raised e') => (t, Crashed e')
    end
  end.

End TraderCore.

Arguments execute_trade : simpl never.
Arguments _make_trade_decision : simpl never.

(** *** The placeholder analyses of lines 76-92

    Each writes one log line and returns a constant, whatever it is
    given. *)

Definition _news_sentiment_analysis {A : Type} (t : Trader) (news_data : A)
    : Trader * Q :=
  (log INFO (Text "Performing news sentiment analysis (placeholder).") t, 7 # 10).

Definition _statistical_arbitrage {A : Type} (t : Trader) (related_market_data : A)
    : Trader * option trade_decision :=
  (log INFO (Text "Performing statistical arbitrage (placeholder).") t, None).

Definition _volatility_analysis {A : Type} (t : Trader) (historical_prices : A)
    : Trader * option trade_decision :=
  (log INFO (Text "Performing volatility analysis (placeholder).") t, None).


(** ** Vocabulary of the properties *)

(** [t1] differs from [t] by log entries only. *)
Definition logged_only (t t1 : Trader) : Prop :=
  api t1 = api t /\ notifier t1 = notifier t /\
  bankroll t1 = bankroll t /\ current_positions t1 = current_positions t.

(** The dictionary assignment of line 56 (buy) or line 62 (sell), made
    with quantity [k]. *)
Definition booked (t t' : Trader) (d : trade_decision) (k : Z) : Prop :=
  (action d = "buy" /\
   current_positions t' =
     <[event_id d := get_position t (event_id d) + k]> (current_positions t)) \/
  (action d = "sell" /\
   current_positions t' =
     <[event_id d := get_position t (event_id d) - k]> (current_positions t)).


(** How the call ends if nothing but the sizing step runs. *)
Definition after_sizing (s : sizing) : Trader * completion :=
  match s with
  | Proceed t _ => (t, Returned)
  | Skipped t => (t, Returned)
  | Failed t e => (t, Raised e)
  end.

(** The trade notification for decision [d] executed with quantity [k]. *)
Definition trade_notification_of (d : trade_decision) (k : Z) : notification :=
  TradeNotification (if (action d =? "buy")%string then Bought else Sold)
    k (event_id d) (price d).

(** The signed quantity a call on [d] adds to the position of its
    market, read off the sizing step and the side; [None] when nothing
    is assigned. *)
Definition signed_quantity (f : Q) (t : Trader) (d : trade_decision) : option Z :=
  match position_sizing f t (quantity d) (price d) with
  | Proceed _ k =>
    if (action d =? "buy")%string then Some k
    else if (action d =? "sell")%string then Some (- k)
    else None
  | Skipped _ => None
  | Failed _ _ => None
  end.

(** The trader after the fetch of [run_trading_strategy]. *)
Definition fetched (t : Trader) : Trader :=
  {| api := S (api t); notifier := notifier t; logger := logger t;
     bankroll := bankroll t; current_positions := current_positions t |}.

(** No sale has been notified. *)
Definition never_sold (t : Trader) : Prop :=
  forall q id p, ~ In (TradeNotification Sold q id p) (notifier t).

(** [l] is [l'] with entries added in front. *)
Definition extends {A : Type} (l' l : list A) : Prop :=
  exists new, l' = new ++ l.

Section Vocabulary.

Variable nf : list notification -> notification -> option exn.

(** What follows the sizing step when it lets quantity [k] through
    for a buy or a sell: the assignment [newpos], the trade
    notification, and, if that raises, the handler. *)
Definition after_booking (t t1 : Trader) (r : Trader * completion)
    (v : verb) (a id : string) (k : Z) (p : Q) (newpos : Z) : Prop :=
  current_positions (fst r) = <[id := newpos]> (current_positions t) /\
  let n := TradeNotification v k id p in
  match nf (notifier t) n with
  | None =>
    notifier (fst r) = n :: notifier t /\
    logger (fst r) = (INFO, ExecutingTrade a id p k) :: logger t1 /\
    snd r = Returned
  | Some e =>
    notifier (fst r) = ErrorNotification (TradeExecutionError id e) :: n :: notifier t /\
    logger (fst r) =
      (ERROR, ErrorExecutingTrade id e) :: (INFO, ExecutingTrade a id p k) :: logger t1 /\
    snd r = match nf (n :: notifier t) (ErrorNotification (TradeExecutionError id e)) with
            | Some e' => Raised e'
            | None => Returned
            end
  end.

(** The try block is entered with quantity [k] and ends in [r]. *)
Definition proceeds (t : Trader) (d : trade_decision) (k : Z)
    (r : Trader * completion) : Prop :=
  exists t1, logged_only t t1 /\
    ((action d = "buy" /\
      after_booking t t1 r Bought "buy" (event_id d) k (price d)
        (get_position t (event_id d) + k)) \/
     (action d = "sell" /\
      after_booking t t1 r Sold "sell" (event_id d) k (price d)
        (get_position t (event_id d) - k)) \/
     (action d <> "buy" /\ action d <> "sell" /\ r = (t1, Returned))).

End Vocabulary.

(** ** Scenarios of the specification *)

Module Scenarios.

(** A notifier that delivers everything, and one that is down. *)
Definition quiet : list notification -> notification -> option exn :=
  fun _ _ => None.

Definition down : list notification -> notification -> option exn :=
  fun _ _ => Some (CollaboratorError "notifier unreachable").

(** A trader with bankroll [B] that has done nothing yet. *)
Definition fresh (B : Q) : Trader :=
  {| api := O; notifier := []; logger := []; bankroll := B;
     current_positions := ∅ |}.

Definition order (a : string) (q : Z) (p : Q) : trade_decision :=
  {| event_id := "TEST_EVENT"; action := a; quantity := q; price := p |}.

(** The configured fraction of the scenarios, 0.1. *)
Definition tenth : Q := 1 # 10.

(** A notifier that fails on trade notifications only. *)
Definition flaky : list notification -> notification -> option exn :=
  fun _ n =>
    if is_trade_notification n then Some (CollaboratorError "timed out") else None.

(** A snapshot with a single market record. *)
Definition one_market (id : option string) (p : option Q)
    : option (gmap string (list Market.t)) :=
  Some {[ "markets" := [ {| Market.id := id; Market.current_price := p |} ] ]}.

(** A market API that answers [n] fetches and fails from then on. *)
Definition outage_after (n : nat)
    : nat -> option (gmap string (list Market.t)) + exn :=
  fun i =>
    if (i <? n)%nat then inl (one_market (Some "TEST_MARKET") (Some (65 # 100)))
    else inr (CollaboratorError "market API unreachable").

(** A market API that always answers with the same snapshot. *)
Definition steady (market_data : option (gmap string (list Market.t)))
    : nat -> option (gmap string (list Market.t)) + exn :=
  fun _ => inl market_data.

End Scenarios.

(** ** Arithmetic facts *)

Section Arithmetic.
Local Open Scope Q_scope.

Lemma py_gt_true (a b : Q) : py_gt a b = true <-> b < a.
Proof.
  unfold py_gt. rewrite negb_true_iff.
  split; intros H.
  - apply Qnot_le_lt. intros Hle. apply Qle_bool_iff in Hle. congruence.
  - destruct (Qle_bool a b) eqn:E; [|reflexivity].
    apply Qle_bool_iff in E. exfalso. lra.
Qed.

Lemma py_gt_false (a b : Q) : py_gt a b = false <-> a <= b.
Proof.
  unfold py_gt. rewrite negb_false_iff. apply Qle_bool_iff.
Qed.

Lemma py_is_zero_true (x : Q) : py_is_zero x = true <-> x == 0.
Proof. apply Qeq_bool_iff. Qed.

Lemma py_is_zero_false (x : Q) : py_is_zero x = false <-> ~ x == 0.
Proof.
  unfold py_is_zero. split; intros H.
  - intros E. apply Qeq_bool_iff in E. congruence.
  - destruct (Qeq_bool x 0) eqn:E; [|reflexivity].
    apply Qeq_bool_iff in E. contradiction.
Qed.

(** On non-negative numbers [int] is the floor. *)
Lemma py_int_floor (x : Q) : 0 <= x -> py_int x = Qfloor x.
Proof.
  destruct x as [n d]. unfold Qle, py_int, Qfloor. simpl. intros H.
  apply Z.quot_div_nonneg; lia.
Qed.


Lemma Qfloor_nonneg (x : Q) : 0 <= x -> (0 <= Qfloor x)%Z.
Proof.
  destruct x as [n d]. unfold Qle, Qfloor. simpl. intros H.
  apply Z.div_pos; lia.
Qed.

(** The quotient of the sizing step is non-negative when its operands are. *)
Lemma sizing_quotient_nonneg (B f p : Q) :
  0 <= B * f -> 0 < p -> 0 <= B * f / p.
Proof.
  intros Hm Hp. apply Qle_shift_div_l; [assumption|]. lra.
Qed.


End Arithmetic.

(** ** What one call of [execute_trade] does *)

Section Effects.

Variable f : Q.
Variable nf : list notification -> notification -> option exn.

Lemma logged_only_refl t : logged_only t t.
Proof. repeat split. Qed.

Lemma logged_only_log l m t t1 : logged_only t t1 -> logged_only t (log l m t1).
Proof. intros H. exact H. Qed.

Lemma stop_loss_pass id t : stop_loss id t = t.
Proof. unfold stop_loss. destruct (_ && _); reflexivity. Qed.

Lemma get_position_set k v t : get_position (set_position k v t) k = v.
Proof. unfold get_position, set_position. simpl. by rewrite lookup_insert_eq. Qed.

(** The three ways the sizing step ends, with the tests that lead there. *)
Lemma position_sizing_spec t q p :
  let max_trade_value := (bankroll t * f)%Q in
  match position_sizing f t q p with
  | Proceed t1 k =>
    logged_only t t1 /\
    ((py_gt (inject_Z q * p) max_trade_value = false /\ k = q /\ t1 = t) \/
     (py_gt (inject_Z q * p) max_trade_value = true /\ py_is_zero p = false /\
      k = py_int (max_trade_value / p) /\ k <> 0))
  | Skipped t1 =>
    logged_only t t1 /\
    py_gt (inject_Z q * p) max_trade_value = true /\ py_is_zero p = false /\
    py_int (max_trade_value / p) = 0
  | Failed t1 e =>
    logged_only t t1 /\
    py_gt (inject_Z q * p) max_trade_value = true /\ py_is_zero p = true /\
    e = ZeroDivisionError
  end.
Proof.
  unfold position_sizing. simpl.
  destruct (py_gt _ _) eqn:Hgt.
  - destruct (py_is_zero p) eqn:Hz.
    + repeat split.
    + destruct (Z.eqb_spec (py_int (bankroll t * f / p)) 0) as [E|E].
      * repeat split. exact E.
      * split; [repeat split|]. right. repeat split. exact E.
  - split; [repeat split|]. left. repeat split.
Qed.

(** The try block: a buy and a sell assign the position and call the
    notifier, whose exception (if any) leaves the block; any other
    action does nothing. *)
Lemma try_body_spec t id a q p :
  let r := try_body nf t id a q p in
  api (fst r) = api t /\ bankroll (fst r) = bankroll t /\
  ((a = "buy" /\
    current_positions (fst r) = <[id := get_position t id + q]> (current_positions t) /\
    notifier (fst r) = TradeNotification Bought q id p :: notifier t /\
    logger (fst r) = (INFO, ExecutingTrade "buy" id p q) :: logger t /\
    snd r = match nf (notifier t) (TradeNotification Bought q id p) with
            | Some e => Raised e | None => Returned end) \/
   (a = "sell" /\
    current_positions (fst r) = <[id := get_position t id - q]> (current_positions t) /\
    notifier (fst r) = TradeNotification Sold q id p :: notifier t /\
    logger (fst r) = (INFO, ExecutingTrade "sell" id p q) :: logger t /\
    snd r = match nf (notifier t) (TradeNotification Sold q id p) with
            | Some e => Raised e | None => Returned end) \/
   (a <> "buy" /\ a <> "sell" /\ fst r = t /\ snd r = Returned)).
Proof.
  unfold try_body.
  destruct (String.eqb_spec a "buy") as [Ea|Ea].
  - unfold send_trade_notification, notifier_call. simpl.
    destruct (nf _ _); simpl; rewrite ?stop_loss_pass;
      (repeat split; left; repeat split; assumption).
  - destruct (String.eqb_spec a "sell") as [Es|Es].
    + unfold send_trade_notification, notifier_call. simpl.
      destruct (nf _ _); simpl; rewrite ?stop_loss_pass;
        (repeat split; right; left; repeat split; assumption).
    + rewrite stop_loss_pass. simpl. repeat split. right. right.
      repeat split; assumption.
Qed.


Lemma execute_trade_spec t d :
  let r := execute_trade f nf t (Some d) in
  let id := event_id d in
  api (fst r) = api t /\ bankroll (fst r) = bankroll t /\
  match position_sizing f t (quantity d) (price d) with
  | Failed t1 e => r = (t1, Raised e)
  | Skipped t1 => r = (t1, Returned)
  | Proceed t1 k =>
    (action d = "buy" /\
     after_booking nf t t1 r Bought "buy" id k (price d) (get_position t id + k)) \/
    (action d = "sell" /\
     after_booking nf t t1 r Sold "sell" id k (price d) (get_position t id - k)) \/
    (action d <> "buy" /\ action d <> "sell" /\ r = (t1, Returned))
  end.
Proof.
  unfold execute_trade.
  pose proof (position_sizing_spec t (quantity d) (price d)) as Hs.
  destruct (position_sizing f t (quantity d) (price d)) as [t1 k|t1|t1 e];
    simpl in Hs.
  - destruct Hs as [(Ha & Hn & Hb & Hc) _].
    pose proof (try_body_spec t1 (event_id d) (action d) k (price d)) as Ht.
    destruct (try_body nf t1 (event_id d) (action d) k (price d)) as [t2 c].
    simpl in Ht. destruct Ht as (Ha2 & Hb2 & Ht).
    assert (Hg : get_position t1 (event_id d) = get_position t (event_id d))
      by (unfold get_position; by rewrite Hc).
    rewrite Hg, Hc, Hn in Ht.
    destruct Ht as [(Ea & Hp & Hno & Hl & Hr)|[(Ea & Hp & Hno & Hl & Hr)|(Eb & Es & -> & ->)]].
    + subst c. unfold after_booking.
      destruct (nf (notifier t) _) as [e|] eqn:En; simpl;
        (split; [congruence|]); (split; [congruence|]); left;
        (split; [assumption|]); rewrite ?En, ?Hno; repeat split;
        try assumption; try congruence.
    + subst c. unfold after_booking.
      destruct (nf (notifier t) _) as [e|] eqn:En; simpl;
        (split; [congruence|]); (split; [congruence|]); right; left;
        (split; [assumption|]); rewrite ?En, ?Hno; repeat split;
        try assumption; try congruence.
    + simpl. repeat split; try assumption. right. right. repeat split; assumption.
  - destruct Hs as [(Ha & Hn & Hb & Hc) _]. simpl. repeat split; assumption.
  - destruct Hs as [(Ha & Hn & Hb & Hc) _]. simpl. repeat split; assumption.
Qed.


(** The four paths through [execute_trade] on a decision, by the
    comparisons the code makes. *)
Lemma execute_trade_cases t d :
  let r := execute_trade f nf t (Some d) in
  let value := (inject_Z (quantity d) * price d)%Q in
  let max_trade_value := (bankroll t * f)%Q in
  (* within the limit: the requested quantity goes through *)
  ((value <= max_trade_value)%Q /\ proceeds nf t d (quantity d) r) \/
  (* over the limit, zero price: the division raises *)
  ((max_trade_value < value)%Q /\ (price d == 0)%Q /\
   exists t1, logged_only t t1 /\ r = (t1, Raised ZeroDivisionError)) \/
  (* over the limit, adjusted to zero: skipped *)
  ((max_trade_value < value)%Q /\ ~ (price d == 0)%Q /\
   py_int (max_trade_value / price d) = 0 /\
   exists t1, logged_only t t1 /\ r = (t1, Returned)) \/
  (* over the limit: the adjusted quantity goes through *)
  ((max_trade_value < value)%Q /\ ~ (price d == 0)%Q /\
   py_int (max_trade_value / price d) <> 0 /\
   proceeds nf t d (py_int (max_trade_value / price d)) r).
Proof.
  intros r value max_trade_value.
  pose proof (execute_trade_spec t d) as (_ & _ & He).
  pose proof (position_sizing_spec t (quantity d) (price d)) as Hs.
  fold r in He. simpl in Hs. fold value max_trade_value in Hs.
  destruct (position_sizing f t (quantity d) (price d)) as [t1 k|t1|t1 e].
  - destruct Hs as [Hlog [(Hgt & -> & ->)|(Hgt & Hz & -> & Hk)]].
    + left. split; [by apply py_gt_false|]. exists t. split; assumption.
    + right. right. right.
      split; [by apply py_gt_true|]. split; [by apply py_is_zero_false|].
      split; [assumption|]. exists t1. split; assumption.
  - destruct Hs as (Hlog & Hgt & Hz & Hk).
    right. right. left.
    split; [by apply py_gt_true|]. split; [by apply py_is_zero_false|].
    split; [assumption|]. exists t1. split; assumption.
  - destruct Hs as (Hlog & Hgt & Hz & ->).
    right. left.
    split; [by apply py_gt_true|]. split; [by apply py_is_zero_true|].
    exists t1. split; assumption.
Qed.

Lemma buy_is_not_sell : "buy" <> "sell".
Proof. discriminate. Qed.

(** A quantity that goes through moves the book as [booked] says,
    provided the side is one the code knows. *)
Lemma proceeds_booked t d k r :
  proceeds nf t d k r -> action d = "buy" \/ action d = "sell" ->
  booked t (fst r) d k.
Proof.
  intros (t1 & _ & [(Ea & Hp & _)|[(Ea & Hp & _)|(Eb & Es & _)]]) Hside.
  - left. split; assumption.
  - right. split; assumption.
  - destruct Hside; contradiction.
Qed.




End Effects.

(** ** Position sizing and the book *)

Section PositionSizing.

Variable f : Q.
Variable nf : list notification -> notification -> option exn.




(** A proposal within the limit is booked as requested. *)
Lemma execute_trade_within_limit (t : Trader) (d : trade_decision) :
  (inject_Z (quantity d) * price d <= bankroll t * f)%Q ->
  action d = "buy" \/ action d = "sell" ->
  let r := execute_trade f nf t (Some d) in
  booked t (fst r) d (quantity d) /\ bankroll (fst r) = bankroll t.
Proof.
  intros Hle Hside r.
  pose proof (execute_trade_spec f nf t d) as (_ & Hb & _).
  split; [|exact Hb].
  pose proof (execute_trade_cases f nf t d) as Hc. cbv zeta in Hc. fold r in Hc.
  destruct Hc as [(_ & Hpr)|[(Hlt & _)|[(Hlt & _)|(Hlt & _)]]];
    [by apply (proceeds_booked nf)|exfalso; lra..].
Qed.

(** C7.  On a market that is flat (absent from the book, or at zero), a
    Buy of k within the sizing limit sets the position to k, and a Sell
    of k at the same price afterwards sets it back to 0; the book ends
    as the initial one with that market at 0.  The sign of k plays no
    part. *)
Theorem buy_then_sell_returns_flat (t : Trader) (id : string) (k : Z) (p : Q) :
  get_position t id = 0 ->
  (inject_Z k * p <= bankroll t * f)%Q ->
  let buy := {| event_id := id; action := "buy"; quantity := k; price := p |} in
  let sell := {| event_id := id; action := "sell"; quantity := k; price := p |} in
  let t1 := fst (execute_trade f nf t (Some buy)) in
  let t2 := fst (execute_trade f nf t1 (Some sell)) in
  current_positions t1 !! id = Some k /\
  current_positions t2 !! id = Some 0 /\
  current_positions t2 = <[id := 0]> (current_positions t).
Proof.
  intros Hflat Hle buy sell t1 t2.
  destruct (execute_trade_within_limit t buy Hle) as [[(_ & Hb)|(Hs & _)] HB];
    [by left| |discriminate Hs].
  simpl in Hb. rewrite Hflat in Hb. fold t1 in Hb, HB.
  assert (H1 : current_positions t1 !! id = Some k).
  { rewrite Hb, lookup_insert_eq. reflexivity. }
  assert (Hle' : (inject_Z (quantity sell) * price sell <= bankroll t1 * f)%Q)
    by (rewrite HB; exact Hle).
  destruct (execute_trade_within_limit t1 sell Hle') as [[(Hs & _)|(_ & Hb2)] _];
    [by right|discriminate Hs|].
  simpl in Hb2. fold t2 in Hb2.
  assert (Hg : get_position t1 id = k) by (unfold get_position; by rewrite H1).
  rewrite Hg, Hb, insert_insert_eq, Z.sub_diag in Hb2.
  split; [exact H1|]. split; [|exact Hb2].
  rewrite Hb2. apply lookup_insert_eq.
Qed.

(** The book after a call is the book before, or the book before with
    the decision's own market assigned. *)
Lemma execute_trade_book (t : Trader) (d : trade_decision) :
  let r := execute_trade f nf t (Some d) in
  current_positions (fst r) = current_positions t \/
  exists v, current_positions (fst r) = <[event_id d := v]> (current_positions t).
Proof.
  intros r.
  pose proof (execute_trade_spec f nf t d) as (_ & _ & He). cbv zeta in He. fold r in He.
  pose proof (position_sizing_spec f t (quantity d) (price d)) as Hs.
  destruct (position_sizing f t (quantity d) (price d)) as [t1 k|t1|t1 e];
    cbv zeta in Hs; destruct Hs as [Hlog _].
  - destruct He as [(_ & Hp & _)|[(_ & Hp & _)|(_ & _ & ->)]].
    + right. eexists. exact Hp.
    + right. eexists. exact Hp.
    + left. apply Hlog.
  - left. rewrite He. apply Hlog.
  - left. rewrite He. apply Hlog.
Qed.

(** C9.  Frame of [execute_trade]: whatever the proposal and however the
    call ends, the bankroll is unchanged, every key of the position book
    is still a key, and every entry other than the one of the proposal's
    own market is what it was. *)
Theorem execute_trade_frame (t : Trader) (od : option trade_decision) :
  let t' := fst (execute_trade f nf t od) in
  bankroll t' = bankroll t /\
  dom (current_positions t) ⊆ dom (current_positions t') /\
  (forall k : string,
     (forall d, od = Some d -> event_id d <> k) ->
     current_positions t' !! k = current_positions t !! k).
Proof.
  destruct od as [d|]; [|simpl; repeat split; done].
  intros t'.
  pose proof (execute_trade_spec f nf t d) as (_ & HB & _).
  pose proof (execute_trade_book t d) as Hbook. cbv zeta in Hbook. fold t' in Hbook.
  split; [exact HB|].
  destruct Hbook as [->|[v ->]].
  - split; [done|]. intros; reflexivity.
  - split.
    + rewrite dom_insert. set_solver.
    + intros k Hk. apply lookup_insert_ne. by apply Hk.
Qed.

(** C8, as the code has it.  A proposal whose side is neither "buy" nor
    "sell" is ignored in silence: the call is the sizing step and nothing
    more, so the position book and the notifier are untouched, and for a
    proposal within the limit the call returns leaving the whole trader,
    log included, as it was.  No value, log entry or notification marks
    the trade as rejected. *)
Theorem unknown_side_ignored (t : Trader) (d : trade_decision) :
  action d <> "buy" -> action d <> "sell" ->
  let r := execute_trade f nf t (Some d) in
  r = after_sizing (position_sizing f t (quantity d) (price d)) /\
  current_positions (fst r) = current_positions t /\
  notifier (fst r) = notifier t /\
  ((inject_Z (quantity d) * price d <= bankroll t * f)%Q -> r = (t, Returned)).
Proof.
  intros Hb Hs r.
  pose proof (execute_trade_spec f nf t d) as (_ & _ & He). cbv zeta in He. fold r in He.
  pose proof (position_sizing_spec f t (quantity d) (price d)) as Hz. cbv zeta in Hz.
  destruct (position_sizing f t (quantity d) (price d)) as [t1 k|t1|t1 e].
  - destruct He as [(Ea & _)|[(Ea & _)|(_ & _ & ->)]]; [contradiction..|].
    destruct Hz as [Hlog Hz]. simpl.
    split; [reflexivity|]. split; [apply Hlog|]. split; [apply Hlog|].
    intros Hle. destruct Hz as [(_ & _ & ->)|(Hgt & _)]; [reflexivity|].
    apply py_gt_true in Hgt. exfalso. lra.
  - rewrite He. destruct Hz as (Hlog & Hgt & _). simpl.
    split; [reflexivity|]. split; [apply Hlog|]. split; [apply Hlog|].
    intros Hle. apply py_gt_true in Hgt. exfalso. lra.
  - rewrite He. destruct Hz as (Hlog & Hgt & _). simpl.
    split; [reflexivity|]. split; [apply Hlog|]. split; [apply Hlog|].
    intros Hle. apply py_gt_true in Hgt. exfalso. lra.
Qed.

(** C4, as the code has it.  (i) An exception of the sizing step is
    outside the try block: it leaves [execute_trade], with nothing
    booked.  (ii) When the trade notification of a buy or a sell raises,
    the exception is caught, logged and reported by an error
    notification, the assignment to the book stays, and the call ends as
    that error notification ends: it returns, or lets the exception of
    the error notification out.  (iii) So no exception leaves the call
    when the sizing step does not fail and error notifications are
    delivered. *)
Theorem execute_trade_failure_handling (t : Trader) (d : trade_decision) :
  let r := execute_trade f nf t (Some d) in
  let id := event_id d in
  (forall t1 e,
     position_sizing f t (quantity d) (price d) = Failed t1 e ->
     r = (t1, Raised e) /\ current_positions t1 = current_positions t) /\
  (forall t1 k e,
     position_sizing f t (quantity d) (price d) = Proceed t1 k ->
     action d = "buy" \/ action d = "sell" ->
     nf (notifier t) (trade_notification_of d k) = Some e ->
     booked t (fst r) d k /\
     logger (fst r) =
       (ERROR, ErrorExecutingTrade id e)
         :: (INFO, ExecutingTrade (action d) id (price d) k) :: logger t1 /\
     notifier (fst r) =
       ErrorNotification (TradeExecutionError id e) :: trade_notification_of d k :: notifier t /\
     snd r = match nf (trade_notification_of d k :: notifier t)
                      (ErrorNotification (TradeExecutionError id e)) with
             | Some e' => Raised e'
             | None => Returned
             end) /\
  ((forall t1 e, position_sizing f t (quantity d) (price d) <> Failed t1 e) ->
   (forall h e, nf h (ErrorNotification (TradeExecutionError id e)) = None) ->
   snd r = Returned).
Proof.
  intros r id.
  pose proof (execute_trade_spec f nf t d) as (_ & _ & He). cbv zeta in He.
  fold r id in He.
  pose proof (position_sizing_spec f t (quantity d) (price d)) as Hz. cbv zeta in Hz.
  destruct (position_sizing f t (quantity d) (price d)) as [t1 k|t1|t1 e].
  - split; [intros ? ? [=]|]. split.
    + intros t1' k' e [= -> ->] Hside Hnf. unfold trade_notification_of in *.
      destruct He as [(Ea & Hp & Hn)|[(Ea & Hp & Hn)|(Hb & Hs & _)]].
      * rewrite Ea in *. simpl in *. fold id in Hnf. rewrite Hnf in Hn.
        destruct Hn as (Hn1 & Hn2 & Hn3).
        split; [left; split; [exact Ea|exact Hp]|]. repeat split; assumption.
      * rewrite Ea in *. simpl in *. fold id in Hnf. rewrite Hnf in Hn.
        destruct Hn as (Hn1 & Hn2 & Hn3).
        split; [right; split; [exact Ea|exact Hp]|]. repeat split; assumption.
      * destruct Hside; contradiction.
    + intros _ Hquiet.
      destruct He as [(_ & _ & Hn)|[(_ & _ & Hn)|(_ & _ & ->)]]; [| |reflexivity];
        cbv zeta in Hn; destruct (nf (notifier t) _) as [e|];
        destruct Hn as (_ & _ & ->); try reflexivity; by rewrite Hquiet.
  - split; [intros ? ? [=]|]. split; [intros ? ? ? [=]|].
    intros _ _. by rewrite He.
  - split.
    + intros t1' e' [= -> ->]. split; [exact He|apply Hz].
    + split; [intros ? ? ? [=]|]. intros Hnf _. exfalso. by eapply Hnf.
Qed.

End PositionSizing.

(** ** The decision function *)

Section Decision.

Lemma truthy_id_spec (o : option string) :
  truthy_id o = true <-> exists s, o = Some s /\ s <> "".
Proof.
  destruct o as [s|]; simpl.
  - destruct (String.eqb_spec s ""); simpl; split.
    + discriminate.
    + intros (s' & [= <-] & Hne). contradiction.
    + intros _. by exists s.
    + reflexivity.
  - split; [discriminate|]. intros (s & [=] & _).
Qed.

Lemma truthy_price_spec (o : option Q) :
  truthy_price o = true <-> exists p, o = Some p /\ ~ (p == 0)%Q.
Proof.
  destruct o as [p|]; simpl.
  - rewrite negb_true_iff, py_is_zero_false. split.
    + intros H. by exists p.
    + by intros (p' & [= <-] & H).
  - split; [discriminate|]. intros (p & [=] & _).
Qed.

Lemma truthy_dict_lookup (md : gmap string (list Market.t)) k v :
  md !! k = Some v -> truthy_dict md = true.
Proof.
  intros H. unfold truthy_dict. rewrite negb_true_iff.
  apply bool_decide_eq_false. intros ->. by rewrite lookup_empty in H.
Qed.

(** The decision on a snapshot whose markets list starts with [market]:
    only that record counts, and it counts through the truth values of
    its two fields. *)
Lemma make_trade_decision_first_record (t : Trader)
    (md : gmap string (list Market.t)) (market : Market.t) (rest : list Market.t) :
  md !! "markets" = Some (market :: rest) ->
  snd (_make_trade_decision t (Some md)) =
    if truthy_id (Market.id market) && truthy_price (Market.current_price market)
    then match Market.id market, Market.current_price market with
         | Some i, Some p =>
           Some {| event_id := i; action := "buy"; quantity := 1; price := p |}
         | _, _ => None
         end
    else None.
Proof.
  intros H. unfold _make_trade_decision. simpl.
  by rewrite (truthy_dict_lookup md _ _ H), H.
Qed.

(** A proposal comes from the first record of a markets list, whose id
    is a non-empty string and whose price is a number other than zero. *)
Lemma make_trade_decision_inv (t : Trader)
    (market_data : option (gmap string (list Market.t))) (d : trade_decision) :
  snd (_make_trade_decision t market_data) = Some d ->
  exists md market rest,
    market_data = Some md /\ md !! "markets" = Some (market :: rest) /\
    Market.id market = Some (event_id d) /\
    Market.current_price market = Some (price d) /\
    event_id d <> "" /\ ~ (price d == 0)%Q /\
    action d = "buy" /\ quantity d = 1.
Proof.
  unfold _make_trade_decision. simpl.
  destruct market_data as [md|]; [|discriminate].
  destruct (truthy_dict md); [|discriminate].
  destruct (md !! "markets") as [[|market rest]|] eqn:Hm; [discriminate| |discriminate].
  destruct (truthy_id (Market.id market)) eqn:Hi; [|discriminate].
  destruct (truthy_price (Market.current_price market)) eqn:Hp; [|discriminate].
  apply truthy_id_spec in Hi as (i & Ei & Hi).
  apply truthy_price_spec in Hp as (p & Ep & Hp).
  rewrite Ei, Ep. simpl. intros [= <-]. simpl.
  exists md, market, rest. repeat split; assumption.
Qed.

(** C3, as the code has it.  The decision is None for an absent
    snapshot and for one without a 'markets' entry or with an empty
    markets list.  Otherwise only the first record counts: the decision
    is None when its id or its price is missing, None, the empty string
    or zero, and otherwise a buy of quantity 1 of that id at that
    price.  The call leaves one log line and nothing else. *)
Theorem make_trade_decision_spec (t : Trader) :
  snd (_make_trade_decision t None) = None /\
  (forall md,
     md !! "markets" = None \/ md !! "markets" = Some [] ->
     snd (_make_trade_decision t (Some md)) = None) /\
  (forall md market rest,
     md !! "markets" = Some (market :: rest) ->
     let r := snd (_make_trade_decision t (Some md)) in
     (Market.id market = None \/ Market.id market = Some "" \/
      Market.current_price market = None \/
      (exists p, Market.current_price market = Some p /\ (p == 0)%Q) ->
      r = None) /\
     (forall i p,
        Market.id market = Some i -> Market.current_price market = Some p ->
        i <> "" -> ~ (p == 0)%Q ->
        r = Some {| event_id := i; action := "buy"; quantity := 1; price := p |})) /\
  (forall market_data,
     fst (_make_trade_decision t market_data) =
       log INFO (Text "Making a placeholder trade decision.") t).
Proof.
  split; [reflexivity|]. split; [|split].
  - intros md H. unfold _make_trade_decision. simpl.
    destruct (truthy_dict md); [|reflexivity].
    by destruct H as [-> | ->].
  - intros md market rest H r. unfold r.
    rewrite (make_trade_decision_first_record t md market rest H). split.
    + intros [E|[E|[E|(p & E & Hz)]]]; rewrite E; simpl.
      * reflexivity.
      * reflexivity.
      * by rewrite andb_false_r.
      * apply py_is_zero_true in Hz. rewrite Hz. simpl. by rewrite andb_false_r.
    + intros i p Ei Ep Hi Hp.
      assert (Hti : truthy_id (Market.id market) = true)
        by (apply truthy_id_spec; eauto).
      assert (Htp : truthy_price (Market.current_price market) = true)
        by (apply truthy_price_spec; eauto).
      by rewrite Hti, Htp, Ei, Ep.
  - reflexivity.
Qed.

(** C10.  A proposal the decision function returns has a non-empty
    market id and a price other than zero, so the sizing step of
    [execute_trade] on it never fails: the division is never reached
    with a zero price, whatever the fraction and the trader.  A first
    record that has both fields, with the empty string as id or zero as
    price, gives None. *)
Theorem decided_proposal_has_id_and_price :
  (forall t market_data d,
     snd (_make_trade_decision t market_data) = Some d ->
     event_id d <> "" /\ ~ (price d == 0)%Q /\
     forall f t' t1 e,
       position_sizing f t' (quantity d) (price d) <> Failed t1 e) /\
  (forall t md market rest i p,
     md !! "markets" = Some (market :: rest) ->
     Market.id market = Some i -> Market.current_price market = Some p ->
     i = "" \/ (p == 0)%Q ->
     snd (_make_trade_decision t (Some md)) = None).
Proof.
  split.
  - intros t market_data d H.
    apply make_trade_decision_inv in H
      as (md & market & rest & _ & _ & _ & _ & Hi & Hp & _ & _).
    split; [exact Hi|]. split; [exact Hp|].
    intros f t' t1 e Hf.
    pose proof (position_sizing_spec f t' (quantity d) (price d)) as Hs.
    rewrite Hf in Hs. destruct Hs as (_ & _ & Hz & _).
    apply py_is_zero_true in Hz. contradiction.
  - intros t md market rest i p H Ei Ep Hbad.
    rewrite (make_trade_decision_first_record t md market rest H), Ei, Ep.
    destruct Hbad as [-> | Hz]; [reflexivity|].
    apply py_is_zero_true in Hz. simpl. rewrite Hz. simpl. by rewrite andb_false_r.
Qed.

End Decision.

(** ** The driver loop *)

Section Scheduler.

Variable f : Q.
Variable nf : list notification -> notification -> option exn.
Variable fetch : nat -> option (gmap string (list Market.t)) + exn.
Variable B : Q.

(** Every turn makes exactly one fetch, however it ends. *)
Lemma cycle_fetches_once (t : Trader) : api (fst (cycle f nf fetch t)) = S (api t).
Proof.
  unfold cycle, run_trading_strategy. cbn.
  destruct (fetch (api t)) as [market_data|e]; [|reflexivity].
  destruct (match market_data with Some md => truthy_dict md | None => false end);
    [|reflexivity].
  match goal with
  | |- context [_make_trade_decision ?a ?b] =>
    destruct (_make_trade_decision a b) as [t1 [d|]] eqn:Hd
  end.
  - pose proof (execute_trade_spec f nf t1 d) as (Ha & _). rewrite Ha.
    by injection Hd as <- _.
  - by injection Hd as <- _.
Qed.

(** A failing fetch leaves the turn. *)
Lemma fetch_failure_escapes_cycle (t : Trader) (e : exn) :
  fetch (api t) = inr e -> snd (cycle f nf fetch t) = Raised e.
Proof.
  intros H. unfold cycle, run_trading_strategy. simpl. by rewrite H.
Qed.

Lemma trading_loop_fetches (k : nat) (t t1 : Trader) :
  trading_loop f nf fetch k t = (t1, None) -> api t1 = (k + api t)%nat.
Proof.
  revert t. induction k as [|k IH]; intros t; simpl.
  - by intros [= ->].
  - pose proof (cycle_fetches_once t) as Hc.
    destruct (cycle f nf fetch t) as [t' [|e]]; [|discriminate].
    intros H. apply IH in H. simpl in Hc. lia.
Qed.

(** Once an exception has left the loop, more fuel changes nothing. *)
Lemma trading_loop_stable (n : nat) (t t' : Trader) (e : exn) :
  trading_loop f nf fetch n t = (t', Some e) ->
  forall m, (n <= m)%nat -> trading_loop f nf fetch m t = (t', Some e).
Proof.
  revert t. induction n as [|n IH]; intros t; simpl; [discriminate|].
  intros H [|m] Hm; [lia|]. simpl.
  destruct (cycle f nf fetch t) as [t1 [|e1]]; [|exact H].
  apply IH; [exact H|lia].
Qed.

(** [k] turns that return, then one that raises. *)
Lemma trading_loop_first_exception (k : nat) (t t1 t2 : Trader) (e : exn) :
  trading_loop f nf fetch k t = (t1, None) -> cycle f nf fetch t1 = (t2, Raised e) ->
  trading_loop f nf fetch (S k) t = (t2, Some e).
Proof.
  revert t. induction k as [|k IH]; intros t H Hc.
  - injection H as ->. simpl. by rewrite Hc.
  - change (match cycle f nf fetch t with
            | (t', Raised e') => (t', Some e')
            | (t', Returned) => trading_loop f nf fetch (S k) t'
            end = (t2, Some e)).
    simpl in H. destruct (cycle f nf fetch t) as [t' [|e']]; [|discriminate].
    by apply IH.
Qed.

(** C6.  If the first [k] turns of the loop return and the next one lets
    an exception [e] out (a failed market-data fetch is such a turn),
    then with any fuel above [k] the loop has ended with [e] after
    exactly [k + 1] fetches, and [main] has run its handler once on the
    trader of that moment: one error line in the log, one error
    notification carrying [e], nothing else changed.  No later turn
    runs; [main] returns, or ends with the exception of that error
    notification. *)
Theorem main_stops_at_first_escaped_exception
    (k fuel : nat) (t1 t2 : Trader) (e : exn) :
  trading_loop f nf fetch k (initial_trader B) = (t1, None) ->
  cycle f nf fetch t1 = (t2, Raised e) ->
  (k < fuel)%nat ->
  let r := main f nf fetch B fuel in
  trading_loop f nf fetch fuel (initial_trader B) = (t2, Some e) /\
  logger (fst r) = (ERROR, AnErrorOccurred e) :: logger t2 /\
  notifier (fst r) = ErrorNotification (ErrorText e) :: notifier t2 /\
  api (fst r) = S k /\ api t2 = S k /\
  current_positions (fst r) = current_positions t2 /\
  bankroll (fst r) = bankroll t2 /\
  snd r = match nf (notifier t2) (ErrorNotification (ErrorText e)) with
          | Some e' => Crashed e'
          | None => Exited
          end.
Proof.
  intros Hk Hc Hfuel r.
  assert (Hloop : trading_loop f nf fetch fuel (initial_trader B) = (t2, Some e)).
  { apply (trading_loop_stable (S k)); [|lia].
    by apply (trading_loop_first_exception k _ t1). }
  assert (Hapi : api t2 = S k).
  { pose proof (cycle_fetches_once t1) as H1. rewrite Hc in H1. simpl in H1.
    apply trading_loop_fetches in Hk. simpl in Hk. lia. }
  split; [exact Hloop|].
  unfold r, main. rewrite Hloop. unfold top_level_handler, send_error_notification, notifier_call. simpl.
  destruct (nf (notifier t2) (ErrorNotification (ErrorText e))); simpl; repeat split; exact Hapi.
Qed.

End Scheduler.

(** ** Concrete runs *)

Section Runs.

Import Scenarios.

Ltac by_computation :=
  first [ reflexivity
        | vm_compute; reflexivity
        | vm_compute; discriminate
        | vm_compute; intros; discriminate ].

(** The four scenarios of the specification, run on the embedding. *)
Example scenario_A :
  let r := execute_trade tenth quiet (fresh 1000) (Some (order "buy" 200 (1 # 2))) in
  current_positions (fst r) = {[ "TEST_EVENT" := 200 ]} /\
  notifier (fst r) = [TradeNotification Bought 200 "TEST_EVENT" (1 # 2)] /\
  snd r = Returned.
Proof. repeat split; by_computation. Qed.

Example scenario_B :
  let r := execute_trade tenth quiet (fresh 1000) (Some (order "buy" 300 (1 # 2))) in
  current_positions (fst r) = {[ "TEST_EVENT" := 200 ]} /\
  notifier (fst r) = [TradeNotification Bought 200 "TEST_EVENT" (1 # 2)].
Proof. repeat split; by_computation. Qed.

Example scenario_C :
  let r := execute_trade tenth quiet (fresh 1000) (Some (order "buy" 1 200)) in
  current_positions (fst r) = ∅ /\ notifier (fst r) = [] /\
  logger (fst r) =
    [(WARNING, Text "Adjusted quantity is zero. Skipping trade.");
     (WARNING, ExceedsMaxPositionSize (inject_Z 1 * 200) (1000 * tenth))].
Proof. repeat split; by_computation. Qed.

Example scenario_D :
  let t := fresh 1000 in
  let (t1, decision) := _make_trade_decision t (Some {[ "markets" := [] ]}) in
  decision = None /\
  current_positions (fst (execute_trade tenth quiet t1 decision)) = ∅ /\
  notifier (fst (execute_trade tenth quiet t1 decision)) = [].
Proof. repeat split; by_computation. Qed.

(** Outside the configured range: with a negative fraction the
    truncated quotient is a negative quantity, which the test
    [quantity == 0] lets through.  The hypotheses on the fraction in
    the sizing properties above are there for this reason. *)
Remark negative_fraction_books_negative_quantity :
  let r := execute_trade (- (1 # 10)) quiet (fresh 1000) (Some (order "buy" 1 1)) in
  current_positions (fst r) = {[ "TEST_EVENT" := -100 ]} /\
  notifier (fst r) = [TradeNotification Bought (-100) "TEST_EVENT" 1].
Proof. repeat split; by_computation. Qed.




(** Scenario A followed by the closing sale. *)
Lemma buy_then_sell_returns_flat_witness :
  let t := fresh 1000 in
  let t1 := fst (execute_trade tenth quiet t (Some (order "buy" 200 (1 # 2)))) in
  let t2 := fst (execute_trade tenth quiet t1 (Some (order "sell" 200 (1 # 2)))) in
  current_positions t1 !! "TEST_EVENT" = Some 200 /\
  current_positions t2 !! "TEST_EVENT" = Some 0 /\
  current_positions t2 = <[ "TEST_EVENT" := 0 ]> (current_positions t).
Proof.
  intros t.
  apply (buy_then_sell_returns_flat tenth quiet t "TEST_EVENT" 200 (1 # 2));
    by_computation.
Defined.

(** A trade on one market leaves the entry of another alone. *)
Lemma execute_trade_frame_witness :
  let t := set_position "OTHER" 7 (fresh 1000) in
  let t' := fst (execute_trade tenth quiet t (Some (order "sell" 300 (1 # 2)))) in
  current_positions t' !! "OTHER" = Some 7.
Proof.
  intros t t'. unfold t'.
  pose proof (execute_trade_frame tenth quiet t (Some (order "sell" 300 (1 # 2))))
    as (_ & _ & H).
  rewrite (H "OTHER"); [by_computation|].
  intros d [= <-]. by_computation.
Defined.

(** An unknown side within the limit: nothing at all happens. *)
Lemma unknown_side_ignored_witness :
  let t := fresh 1000 in
  execute_trade tenth quiet t (Some (order "hold" 50 (1 # 2))) = (t, Returned).
Proof.
  intros t.
  pose proof (unknown_side_ignored tenth quiet t (order "hold" 50 (1 # 2))) as H.
  destruct H as (_ & _ & _ & H); [by_computation..|].
  apply H. by_computation.
Defined.

(** C8, the claim refuted.  A proposal with the side "hold" comes back
    with the value an executed buy comes back with, and leaves the
    trader, log and notifier included, exactly as it was: nothing
    identifies it as rejected. *)
Lemma unknown_side_not_reported :
  let t := fresh 1000 in
  execute_trade tenth quiet t (Some (order "hold" 50 (1 # 2))) = (t, Returned) /\
  snd (execute_trade tenth quiet t (Some (order "buy" 50 (1 # 2)))) = Returned.
Proof. split; by_computation. Qed.

(** A trade notification that times out: caught, logged, reported, and
    the position stays booked. *)
Lemma execute_trade_failure_handling_witness :
  let t := fresh 1000 in
  let d := order "buy" 200 (1 # 2) in
  let r := execute_trade tenth flaky t (Some d) in
  booked t (fst r) d 200 /\ snd r = Returned.
Proof.
  intros t d r.
  pose proof (execute_trade_failure_handling tenth flaky t d) as (_ & H & Hret).
  split.
  - apply (H t 200 (CollaboratorError "timed out")); [by_computation|by left|by_computation].
  - apply Hret; [intros t1 e; by_computation|intros h e; by_computation].
Defined.

(** C4, the claim refuted.  With a bankroll in deficit and a price of
    zero the division of the sizing step raises outside the try block,
    and the exception reaches the caller; and with the notifier down, a
    well-formed buy ends with the exception of the error notification
    that the handler itself sends. *)
Lemma execute_trade_lets_failures_escape :
  snd (execute_trade tenth quiet (fresh (-1000)) (Some (order "buy" 1 0)))
    = Raised ZeroDivisionError /\
  snd (execute_trade tenth down (fresh 1000) (Some (order "buy" 200 (1 # 2))))
    = Raised (CollaboratorError "notifier unreachable").
Proof. split; by_computation. Qed.

(** A record with both fields gives the buy of one unit. *)
Lemma make_trade_decision_spec_witness :
  snd (_make_trade_decision (fresh 1000) (one_market (Some "M") (Some (1 # 2))))
    = Some {| event_id := "M"; action := "buy"; quantity := 1; price := 1 # 2 |}.
Proof.
  pose proof (make_trade_decision_spec (fresh 1000)) as (_ & _ & H & _).
  apply (H _ {| Market.id := Some "M"; Market.current_price := Some (1 # 2) |} []).
  - by_computation.
  - reflexivity.
  - reflexivity.
  - by_computation.
  - by_computation.
Defined.

(** C3, the claim refuted.  A first record with an id and no price, and
    one with a price and no id, lack one field and not both; the
    decision is None for each. *)
Lemma decision_needs_both_fields :
  snd (_make_trade_decision (fresh 1000) (one_market (Some "M") None)) = None /\
  snd (_make_trade_decision (fresh 1000) (one_market None (Some (1 # 2)))) = None.
Proof. split; by_computation. Qed.

(** The proposal decided on a quoted market passes the sizing step. *)
Lemma decided_proposal_has_id_and_price_witness :
  let d := {| event_id := "M"; action := "buy"; quantity := 1; price := 1 # 2 |} in
  event_id d <> "" /\ ~ (price d == 0)%Q /\
  forall f t' t1 e, position_sizing f t' (quantity d) (price d) <> Failed t1 e.
Proof.
  intros d.
  destruct decided_proposal_has_id_and_price as [H _].
  apply (H (fresh 1000) (one_market (Some "M") (Some (1 # 2))) d).
  by_computation.
Defined.

(** One good turn, then the market API goes away: the bot stops after
    the second fetch, whatever fuel is left. *)
Lemma main_stops_at_first_escaped_exception_witness :
  let r := main tenth quiet (outage_after 1) 1000 5 in
  api (fst r) = 2%nat /\
  snd r = Exited /\
  notifier (fst r) =
    [ErrorNotification (ErrorText (CollaboratorError "market API unreachable"));
     TradeNotification Bought 1 "TEST_MARKET" (65 # 100)].
Proof.
  intros r.
  set (t1 := fst (trading_loop tenth quiet (outage_after 1) 1 (initial_trader 1000))).
  set (t2 := fst (cycle tenth quiet (outage_after 1) t1)).
  pose proof (main_stops_at_first_escaped_exception tenth quiet (outage_after 1) 1000
                1 5 t1 t2 (CollaboratorError "market API unreachable")) as H.
  destruct H as (_ & _ & Hn & Ha & _ & _ & _ & Hr); [by_computation|by_computation|lia|].
  split; [exact Ha|]. split; [exact Hr|]. unfold r. rewrite Hn. by_computation.
Defined.

End Runs.

(** ** Further properties of [execute_trade] *)

Section BookAlgebra.

Variable f : Q.

(** The sizing step reads the trader's bankroll and nothing else. *)
Lemma signed_quantity_bankroll (t t' : Trader) (d : trade_decision) :
  bankroll t = bankroll t' -> signed_quantity f t d = signed_quantity f t' d.
Proof.
  intros HB. unfold signed_quantity, position_sizing. rewrite HB.
  destruct (py_gt _ _); [|reflexivity].
  destruct (py_is_zero _); [reflexivity|].
  destruct (_ =? 0); reflexivity.
Qed.

(** The book after a call, as a function of the book before. *)
Lemma execute_trade_book_eq nf (t : Trader) (d : trade_decision) :
  current_positions (fst (execute_trade f nf t (Some d))) =
    match signed_quantity f t d with
    | Some delta =>
      <[event_id d := get_position t (event_id d) + delta]> (current_positions t)
    | None => current_positions t
    end.
Proof.
  pose proof (execute_trade_spec f nf t d) as (_ & _ & He). cbv zeta in He.
  pose proof (position_sizing_spec f t (quantity d) (price d)) as Hs. cbv zeta in Hs.
  unfold signed_quantity.
  destruct (position_sizing f t (quantity d) (price d)) as [t1 k|t1|t1 e].
  - destruct He as [(Ea & Hp & _)|[(Ea & Hp & _)|(Eb & Es & ->)]].
    + by rewrite Ea.
    + by rewrite Ea.
    + apply String.eqb_neq in Eb, Es. rewrite Eb, Es. apply Hs.
  - rewrite He. apply Hs.
  - rewrite He. apply Hs.
Qed.

Lemma execute_trade_bankroll nf (t : Trader) (od : option trade_decision) :
  bankroll (fst (execute_trade f nf t od)) = bankroll t.
Proof.
  destruct od as [d|]; [|reflexivity].
  by pose proof (execute_trade_spec f nf t d) as (_ & HB & _).
Qed.

(** X1.  The book and the bankroll after a call depend on the book, the
    bankroll and the proposal only: two traders that agree on these end
    with the same book, whatever their notifiers do (deliver, fail on
    the trade, fail on everything) and whatever their logs and
    histories hold. *)
Theorem book_independent_of_notifier nf nf' (t t' : Trader)
    (od : option trade_decision) :
  bankroll t = bankroll t' ->
  current_positions t = current_positions t' ->
  current_positions (fst (execute_trade f nf t od)) =
    current_positions (fst (execute_trade f nf' t' od)) /\
  bankroll (fst (execute_trade f nf t od)) =
    bankroll (fst (execute_trade f nf' t' od)).
Proof.
  intros HB Hc. split; [|by rewrite !execute_trade_bankroll].
  destruct od as [d|]; [|exact Hc].
  rewrite !execute_trade_book_eq, (signed_quantity_bankroll t t' d HB).
  unfold get_position. by rewrite Hc.
Qed.

(** X2.  Two proposals executed one after the other leave the same book
    in either order, on the same market or on two, adjusted, skipped or
    failed as they may be: the sizing of a proposal never looks at the
    book. *)
Theorem execute_trade_commutes nf (t : Trader) (d1 d2 : trade_decision) :
  let t1 := fst (execute_trade f nf t (Some d1)) in
  let t2 := fst (execute_trade f nf t (Some d2)) in
  current_positions (fst (execute_trade f nf t1 (Some d2))) =
    current_positions (fst (execute_trade f nf t2 (Some d1))).
Proof.
  intros t1 t2.
  assert (H1 : signed_quantity f t1 d2 = signed_quantity f t d2)
    by (apply signed_quantity_bankroll, execute_trade_bankroll).
  assert (H2 : signed_quantity f t2 d1 = signed_quantity f t d1)
    by (apply signed_quantity_bankroll, execute_trade_bankroll).
  rewrite (execute_trade_book_eq nf t1 d2), (execute_trade_book_eq nf t2 d1), H1, H2.
  unfold get_position, t1, t2. rewrite !execute_trade_book_eq.
  destruct (signed_quantity f t d1) as [k1|], (signed_quantity f t d2) as [k2|];
    try reflexivity.
  destruct (decide (event_id d1 = event_id d2)) as [E|E].
  - rewrite E, !lookup_insert_eq, !insert_insert_eq. simpl. f_equal. lia.
  - rewrite lookup_insert_ne, (lookup_insert_ne _ (event_id d2) (event_id d1)) by done.
    by apply insert_insert_ne.
Qed.

End BookAlgebra.

Section Downsizing.

Local Open Scope Q_scope.




End Downsizing.

Section Sizing.

Variable f : Q.
Variable nf : list notification -> notification -> option exn.


(** X4.  The book keeps no guard on holdings and trades cancel.  Within
    the limit, a sell of k takes the position from v to v - k, below
    zero if k is larger than v; and from any position v, a buy of k
    followed by a sell of k, or a sell followed by a buy, at the same
    price, ends at v again. *)
Theorem trades_cancel_from_any_position (t : Trader) (id : string) (k : Z) (p : Q) :
  (inject_Z k * p <= bankroll t * f)%Q ->
  let buy := {| event_id := id; action := "buy"; quantity := k; price := p |} in
  let sell := {| event_id := id; action := "sell"; quantity := k; price := p |} in
  let v := get_position t id in
  let after x y := fst (execute_trade f nf (fst (execute_trade f nf t (Some x))) (Some y)) in
  get_position (fst (execute_trade f nf t (Some sell))) id = v - k /\
  get_position (fst (execute_trade f nf t (Some buy))) id = v + k /\
  current_positions (after buy sell) = <[id := v]> (current_positions t) /\
  current_positions (after sell buy) = <[id := v]> (current_positions t).
Proof.
  intros Hle buy sell v after.
  assert (Hb : signed_quantity f t buy = Some k).
  { unfold signed_quantity, position_sizing. simpl.
    apply py_gt_false in Hle. by rewrite Hle. }
  assert (Hs : signed_quantity f t sell = Some (- k)).
  { unfold signed_quantity, position_sizing. simpl.
    apply py_gt_false in Hle. by rewrite Hle. }
  assert (Hb' : forall t', bankroll t' = bankroll t -> signed_quantity f t' buy = Some k)
    by (intros t' E; by rewrite (signed_quantity_bankroll f t' t buy E)).
  assert (Hs' : forall t', bankroll t' = bankroll t -> signed_quantity f t' sell = Some (- k))
    by (intros t' E; by rewrite (signed_quantity_bankroll f t' t sell E)).
  unfold after, get_position at 1 2.
  rewrite !execute_trade_book_eq, Hb, Hs,
    (Hb' _ (execute_trade_bankroll f nf t (Some sell))),
    (Hs' _ (execute_trade_bankroll f nf t (Some buy))).
  unfold get_position at 3 5. rewrite !execute_trade_book_eq, Hb, Hs. simpl.
  rewrite !lookup_insert_eq, !insert_insert_eq. simpl. fold v.
  repeat split; try lia; f_equal; lia.
Qed.

(** X5.  A call only adds to the two histories: the log and the list of
    notifier calls before the call are left in place under what the call
    adds, and a call makes at most two calls on the notifier. *)
Theorem execute_trade_appends (t : Trader) (od : option trade_decision) :
  let t' := fst (execute_trade f nf t od) in
  extends (logger t') (logger t) /\
  exists new, notifier t' = new ++ notifier t /\ (length new <= 2)%nat.
Proof.
  destruct od as [d|]; simpl.
  2:{ split; [by exists [(INFO, Text "No trade decision to execute.")]|].
      exists []. split; [reflexivity|simpl; lia]. }
  pose proof (execute_trade_spec f nf t d) as (_ & _ & He). cbv zeta in He.
  unfold position_sizing in He.
  set (w := (WARNING, ExceedsMaxPositionSize (inject_Z (quantity d) * price d)
                        (bankroll t * f))) in *.
  set (z := (WARNING, Text "Adjusted quantity is zero. Skipping trade.")) in *.
  assert (Hfin : forall (t1 : Trader) k, extends (logger t1) (logger t) ->
            notifier t1 = notifier t ->
            (action d = "buy" /\
               after_booking nf t t1 (execute_trade f nf t (Some d)) Bought "buy"
                 (event_id d) k (price d) (get_position t (event_id d) + k)) \/
            (action d = "sell" /\
               after_booking nf t t1 (execute_trade f nf t (Some d)) Sold "sell"
                 (event_id d) k (price d) (get_position t (event_id d) - k)) \/
            (action d <> "buy" /\ action d <> "sell" /\
               execute_trade f nf t (Some d) = (t1, Returned)) ->
            extends (logger (fst (execute_trade f nf t (Some d)))) (logger t) /\
            exists new, notifier (fst (execute_trade f nf t (Some d))) = new ++ notifier t /\
                        (length new <= 2)%nat).
  { intros t1 k [l1 Hl1] Hn1 [(_ & _ & Hn)|[(_ & _ & Hn)|(_ & _ & ->)]].
    - cbv zeta in Hn. destruct (nf (notifier t) _) as [e|];
        destruct Hn as (Hn & Hl & _); rewrite Hn, Hl, Hl1.
      + split; [by eexists (_ :: _ :: l1)|]. eexists [_; _]. split; [reflexivity|simpl; lia].
      + split; [by eexists (_ :: l1)|]. eexists [_]. split; [reflexivity|simpl; lia].
    - cbv zeta in Hn. destruct (nf (notifier t) _) as [e|];
        destruct Hn as (Hn & Hl & _); rewrite Hn, Hl, Hl1.
      + split; [by eexists (_ :: _ :: l1)|]. eexists [_; _]. split; [reflexivity|simpl; lia].
      + split; [by eexists (_ :: l1)|]. eexists [_]. split; [reflexivity|simpl; lia].
    - simpl. split; [by exists l1|]. exists []. split; [by rewrite Hn1|simpl; lia]. }
  cbv zeta in He. destruct (py_gt _ _).
  - destruct (py_is_zero _).
    + rewrite He. simpl. split; [by exists [w]|]. exists []. split; [reflexivity|simpl; lia].
    + destruct (_ =? 0).
      * rewrite He. simpl. split; [by exists [z; w]|]. exists [].
        split; [reflexivity|simpl; lia].
      * eapply Hfin; [| |exact He]; [by exists [w]|reflexivity].
  - eapply Hfin; [| |exact He]; [by exists []|reflexivity].
Qed.

End Sizing.

(** When [execute_trade] ends with an exception: the two cases. *)
Lemma execute_trade_raise_cases
    (f : Q) (nf : list notification -> notification -> option exn)
    (t : Trader) (d : trade_decision) (e : exn) :
  snd (execute_trade f nf t (Some d)) = Raised e ->
  (e = ZeroDivisionError /\ (price d == 0)%Q /\
   (bankroll t * f < inject_Z (quantity d) * price d)%Q /\
   current_positions (fst (execute_trade f nf t (Some d))) = current_positions t) \/
  (exists k e1,
     nf (notifier t) (trade_notification_of d k) = Some e1 /\
     nf (trade_notification_of d k :: notifier t)
        (ErrorNotification (TradeExecutionError (event_id d) e1)) = Some e /\
     booked t (fst (execute_trade f nf t (Some d))) d k).
Proof.
  intros Hr.
  pose proof (execute_trade_cases f nf t d) as Hc. cbv zeta in Hc.
  assert (Hpr : forall k, proceeds nf t d k (execute_trade f nf t (Some d)) ->
            exists k e1,
              nf (notifier t) (trade_notification_of d k) = Some e1 /\
              nf (trade_notification_of d k :: notifier t)
                 (ErrorNotification (TradeExecutionError (event_id d) e1)) = Some e /\
              booked t (fst (execute_trade f nf t (Some d))) d k).
  { intros k (t1 & _ & [(Ea & Hp & Hn)|[(Ea & Hp & Hn)|(_ & _ & E)]]).
    - cbv zeta in Hn. unfold trade_notification_of. rewrite Ea. simpl.
      destruct (nf (notifier t) _) as [e1|] eqn:En.
      + destruct Hn as (_ & _ & Hs). rewrite Hr in Hs.
        destruct (nf (_ :: notifier t) _) as [e2|] eqn:En2; [|discriminate].
        injection Hs as ->. exists k, e1. rewrite En.
        split; [reflexivity|]. split; [exact En2|]. left. by split.
      + destruct Hn as (_ & _ & Hs). rewrite Hr in Hs. discriminate.
    - cbv zeta in Hn. unfold trade_notification_of. rewrite Ea. simpl.
      destruct (nf (notifier t) _) as [e1|] eqn:En.
      + destruct Hn as (_ & _ & Hs). rewrite Hr in Hs.
        destruct (nf (_ :: notifier t) _) as [e2|] eqn:En2; [|discriminate].
        injection Hs as ->. exists k, e1. rewrite En.
        split; [reflexivity|]. split; [exact En2|]. right. by split.
      + destruct Hn as (_ & _ & Hs). rewrite Hr in Hs. discriminate.
    - rewrite E in Hr. discriminate. }
  destruct Hc as [(_ & Hp)|[(Hlt & Hz & t1 & Hlog & E)|[(_ & _ & _ & t1 & _ & E)|(_ & _ & _ & Hp)]]].
  - right. by apply (Hpr _ Hp).
  - left. rewrite E in Hr |- *. injection Hr as <-.
    repeat split; try assumption. apply Hlog.
  - rewrite E in Hr. discriminate.
  - right. by apply (Hpr _ Hp).
Qed.


(** ** Further properties of the strategy and the loop *)

Section Strategy.

Variable f : Q.
Variable nf : list notification -> notification -> option exn.
Variable fetch : nat -> option (gmap string (list Market.t)) + exn.

(** The decision does not depend on the trader. *)
Lemma decision_of_snapshot (t t' : Trader) market_data :
  snd (_make_trade_decision t market_data) = snd (_make_trade_decision t' market_data).
Proof. reflexivity. Qed.

(** The three ways a turn of the loop goes. *)
Lemma cycle_cases (t : Trader) :
  let r := cycle f nf fetch t in
  let t0 := fetched (log INFO (Text "Running trading strategy") t) in
  (exists e, fetch (api t) = inr e /\ r = (t0, Raised e)) \/
  (exists market_data t1,
     fetch (api t) = inl market_data /\
     snd (_make_trade_decision t0 market_data) = None /\
     logged_only t0 t1 /\ r = (t1, Returned)) \/
  (exists market_data d,
     fetch (api t) = inl market_data /\
     snd (_make_trade_decision t0 market_data) = Some d /\
     r = execute_trade f nf
           (log INFO (Text "Making a placeholder trade decision.") t0) (Some d)).
Proof.
  unfold cycle, run_trading_strategy. cbn.
  destruct (fetch (api t)) as [market_data|e]; [|left; by exists e].
  right.
  destruct (match market_data with Some md => truthy_dict md | None => false end) eqn:Ht.
  - match goal with
    | |- context [_make_trade_decision ?a ?b] =>
      destruct (_make_trade_decision a b) as [t1 [d|]] eqn:Hd
    end.
    + right. exists market_data, d. split; [reflexivity|].
      unfold _make_trade_decision in *. injection Hd as <- Hd.
      split; [exact Hd|reflexivity].
    + left. exists market_data. eexists. split; [reflexivity|].
      unfold _make_trade_decision in *. injection Hd as <- Hd.
      split; [exact Hd|]. split; [|reflexivity]. repeat split.
  - left. exists market_data. eexists. split; [reflexivity|].
    split; [|split; [|reflexivity]; repeat split].
    unfold _make_trade_decision. simpl.
    destruct market_data as [md|]; [|reflexivity]. by rewrite Ht.
Qed.

End Strategy.

Section StrategyProperties.

Variable f : Q.
Variable nf : list notification -> notification -> option exn.
Variable fetch : nat -> option (gmap string (list Market.t)) + exn.

Lemma floor_of_proper_fraction (x : Q) : (0 <= x)%Q -> (x < 1)%Q -> Qfloor x = 0.
Proof.
  intros H0 H1. pose proof (Qfloor_nonneg x H0) as Hn.
  pose proof (Qfloor_le x) as Hle.
  assert (H : (inject_Z (Qfloor x) < inject_Z 1)%Q) by (change (inject_Z 1) with 1%Q; lra).
  rewrite <- Zlt_Qlt in H. lia.
Qed.

(** What the call does with a proposal of the decision function (a buy
    of one unit at a price other than zero) when the limit is not
    negative: one unit is booked if the price is within the limit, and
    the proposal is skipped if not, for the adjusted quantity is then 0. *)
Lemma decided_trade_effect (t : Trader) (d : trade_decision) :
  action d = "buy" -> quantity d = 1 -> ~ (price d == 0)%Q ->
  (0 <= bankroll t * f)%Q ->
  let r := execute_trade f nf t (Some d) in
  ((price d <= bankroll t * f)%Q /\
   current_positions (fst r) =
     <[event_id d := get_position t (event_id d) + 1]> (current_positions t) /\
   exists new,
     notifier (fst r) =
       new ++ TradeNotification Bought 1 (event_id d) (price d) :: notifier t /\
     (new = [] \/ exists e, new = [ErrorNotification (TradeExecutionError (event_id d) e)])) \/
  ((bankroll t * f < price d)%Q /\
   current_positions (fst r) = current_positions t /\
   notifier (fst r) = notifier t /\ snd r = Returned).
Proof.
  intros Ea Eq Hp Hm r.
  pose proof (execute_trade_cases f nf t d) as Hc. cbv zeta in Hc. fold r in Hc.
  rewrite Eq in Hc.
  assert (Hv : (inject_Z 1 * price d == price d)%Q) by (change (inject_Z 1) with 1%Q; ring).
  destruct Hc as [(Hle & t1 & _ & Hpr)|[(_ & Hz & _)|[(Hlt & _ & _ & t1 & Hlog & Hr)|(Hlt & _ & Hk & _)]]].
  - left. rewrite Hv in Hle. split; [exact Hle|].
    destruct Hpr as [(_ & Hcp & Hn)|[(Es & _)|(Eb & _)]];
      [|rewrite Ea in Es; discriminate|contradiction].
    split; [exact Hcp|]. cbv zeta in Hn.
    destruct (nf (notifier t) _) as [e|]; destruct Hn as (Hn & _).
    + eexists [_]. split; [exact Hn|]. right. by exists e.
    + exists []. split; [exact Hn|]. by left.
  - contradiction.
  - right. rewrite Hv in Hlt. split; [exact Hlt|]. rewrite Hr. simpl.
    repeat split; apply Hlog.
  - exfalso. rewrite Hv in Hlt. apply Hk.
    assert (Hpos : (0 < price d)%Q) by lra.
    assert (Hx : (0 <= bankroll t * f / price d)%Q)
      by (by apply sizing_quotient_nonneg).
    rewrite (py_int_floor _ Hx). apply floor_of_proper_fraction; [exact Hx|].
    apply Qlt_shift_div_r; [exact Hpos|]. lra.
Qed.

(** X7.  A turn on which the market API gives nothing to decide on (no
    snapshot, an empty one, no markets, or a first record without a
    usable id or price) changes neither book, bankroll nor notifier: it
    counts one fetch, writes log lines, and returns. *)
Theorem strategy_without_opportunity (t : Trader) market_data :
  fetch (api t) = inl market_data ->
  snd (_make_trade_decision t market_data) = None ->
  let r := run_trading_strategy f nf fetch t in
  snd r = Returned /\
  api (fst r) = S (api t) /\
  current_positions (fst r) = current_positions t /\
  bankroll (fst r) = bankroll t /\
  notifier (fst r) = notifier t /\
  (logger (fst r) = (INFO, Text "No market data fetched.") :: logger t \/
   logger (fst r) =
     (INFO, Text "No profitable trade opportunity found.")
       :: (INFO, Text "Making a placeholder trade decision.") :: logger t).
Proof.
  intros Hf Hd r. unfold r, run_trading_strategy. rewrite Hf.
  destruct (match market_data with Some md => truthy_dict md | None => false end).
  - unfold _make_trade_decision in *. simpl in Hd. cbn. rewrite Hd. cbn.
    repeat split. by right.
  - cbn. repeat split. by left.
Qed.


End StrategyProperties.

Section LoopProperties.

Variable f : Q.
Variable nf : list notification -> notification -> option exn.
Variable fetch : nat -> option (gmap string (list Market.t)) + exn.
Variable B : Q.

(** What the decision function proposes. *)
Lemma decided_is_buy_of_one (t : Trader) market_data (d : trade_decision) :
  snd (_make_trade_decision t market_data) = Some d ->
  action d = "buy" /\ quantity d = 1 /\ ~ (price d == 0)%Q /\ event_id d <> "".
Proof.
  intros H. apply make_trade_decision_inv in H
    as (_ & _ & _ & _ & _ & _ & _ & Hi & Hp & Ha & Hq).
  repeat split; assumption.
Qed.




(** X11.  The limit is per trade and nothing caps the position.  If
    every fetch gives a snapshot whose first record is the same usable
    market at a price within the limit, and error notifications are
    delivered, then after n turns the position in that market has grown
    by n, the bankroll being what it was. *)
Theorem loop_accumulates_position
    (market : Market.t) (rest : list Market.t) (id : string) (p : Q)
    (n : nat) (t : Trader) :
  (forall i, exists md', fetch i = inl (Some md') /\
                         md' !! "markets" = Some (market :: rest)) ->
  Market.id market = Some id -> id <> "" ->
  Market.current_price market = Some p -> ~ (p == 0)%Q ->
  (p <= bankroll t * f)%Q ->
  (forall h m, nf h (ErrorNotification m) = None) ->
  exists t',
    trading_loop f nf fetch n t = (t', None) /\
    get_position t' id = get_position t id + Z.of_nat n /\
    bankroll t' = bankroll t.
Proof.
  intros Hfetch Ei Hi Ep Hp Hle Hquiet. revert t Hle.
  induction n as [|n IH]; intros t Hle.
  { exists t. simpl. repeat split. lia. }
  set (d := {| event_id := id; action := "buy"; quantity := 1; price := p |}).
  set (t0 := log INFO (Text "Making a placeholder trade decision.")
               (fetched (log INFO (Text "Running trading strategy") t))).
  assert (Hc : cycle f nf fetch t = execute_trade f nf t0 (Some d)).
  { destruct (Hfetch (api t)) as (md' & Hf & Hm).
    unfold cycle, run_trading_strategy. cbn. rewrite Hf, (truthy_dict_lookup md' _ _ Hm).
    pose proof (make_trade_decision_first_record
                  (fetched (log INFO (Text "Running trading strategy") t))
                  md' market rest Hm) as Hd.
    rewrite Ei, Ep in Hd. simpl in Hd.
    apply String.eqb_neq in Hi. apply py_is_zero_false in Hp. rewrite Hi, Hp in Hd.
    unfold _make_trade_decision in *. simpl in Hd. cbn. by rewrite Hd. }
  assert (Hv : (inject_Z (quantity d) * price d <= bankroll t0 * f)%Q).
  { simpl. change (inject_Z 1) with 1%Q. lra. }
  destruct (execute_trade_within_limit f nf t0 d Hv) as [Hb HB]; [by left|].
  destruct Hb as [(_ & Hcp)|(Es & _)]; [|discriminate].
  assert (Hret : snd (execute_trade f nf t0 (Some d)) = Returned).
  { destruct (snd (execute_trade f nf t0 (Some d))) as [|e] eqn:Hs; [reflexivity|].
    apply execute_trade_raise_cases in Hs as [(_ & Hz & _)|(k & e1 & _ & H2 & _)].
    - simpl in Hz. contradiction.
    - by rewrite Hquiet in H2. }
  destruct (execute_trade f nf t0 (Some d)) as [t1 c] eqn:He. simpl in *. subst c.
  destruct (IH t1) as (t' & Hl & Hg & HB'); [by rewrite HB|].
  exists t'. rewrite Hc. split; [exact Hl|]. split; [|by rewrite HB', HB].
  rewrite Hg. unfold get_position at 1. rewrite Hcp, lookup_insert_eq. simpl.
  unfold get_position. simpl. lia.
Qed.

(** One turn with a limit that is not negative: the bankroll stays, one
    fetch is counted, and every position stays or grows by one. *)
Lemma cycle_step (t : Trader) :
  (0 <= bankroll t * f)%Q ->
  let t' := fst (cycle f nf fetch t) in
  bankroll t' = bankroll t /\ api t' = S (api t) /\
  forall k, get_position t k <= get_position t' k <= get_position t k + 1.
Proof.
  intros HB t'. split; [|split; [apply cycle_fetches_once|]].
  - unfold t'.
    destruct (cycle_cases f nf fetch t) as [(e & _ & ->)|[(md & t1 & _ & _ & Hl & ->)|(md & d & _ & _ & ->)]].
    + reflexivity.
    + apply Hl.
    + by rewrite execute_trade_bankroll.
  - intros k. unfold t'.
    destruct (cycle_cases f nf fetch t) as [(e & _ & ->)|[(md & t1 & _ & _ & Hl & ->)|(md & d & _ & Hd & ->)]].
    + unfold get_position. simpl. lia.
    + destruct Hl as (_ & _ & _ & Hc). unfold get_position. simpl. rewrite Hc. simpl. lia.
    + apply decided_is_buy_of_one in Hd as (Ha & Hq & Hp & _).
      destruct (decided_trade_effect f nf
                  (log INFO (Text "Making a placeholder trade decision.")
                     (fetched (log INFO (Text "Running trading strategy") t))) d
                  Ha Hq Hp HB) as [(_ & Hc & _)|(_ & Hc & _)];
        unfold get_position; rewrite Hc; simpl; [|lia].
      destruct (decide (event_id d = k)) as [<-|Hne].
      * rewrite lookup_insert_eq. unfold get_position. simpl. lia.
      * rewrite lookup_insert_ne by done. lia.
Qed.

(** X12.  With a limit that is not negative, the bot only ever adds to
    its positions, one unit a turn at most: at any fuel, the bankroll is
    the configured one and every position lies between 0 and the number
    of fetches made. *)
Theorem positions_bounded_by_fetches (fuel : nat) (k : string) :
  (0 <= B * f)%Q ->
  let t := fst (main f nf fetch B fuel) in
  bankroll t = B /\ 0 <= get_position t k <= Z.of_nat (api t).
Proof.
  intros HB.
  assert (Hloop : forall n t,
            bankroll t = B -> 0 <= get_position t k <= Z.of_nat (api t) ->
            let t' := fst (trading_loop f nf fetch n t) in
            bankroll t' = B /\ 0 <= get_position t' k <= Z.of_nat (api t')).
  { induction n as [|n IH]; intros t Eb Hk; simpl; [by split|].
    assert (HB' : (0 <= bankroll t * f)%Q) by (by rewrite Eb).
    destruct (cycle_step t HB') as (Eb' & Ha & Hpos). specialize (Hpos k).
    destruct (cycle f nf fetch t) as [t1 [|e]]; simpl in *.
    - apply IH; [congruence|lia].
    - split; [congruence|lia]. }
  intros t.
  assert (H0 : bankroll (initial_trader B) = B /\
               0 <= get_position (initial_trader B) k
                 <= Z.of_nat (api (initial_trader B))) by (by split).
  destruct H0 as [E0 H0]. specialize (Hloop fuel (initial_trader B) E0 H0).
  unfold t, main. destruct (trading_loop f nf fetch fuel (initial_trader B)) as [t1 [e|]].
  - simpl in Hloop. unfold top_level_handler, send_error_notification, notifier_call.
    simpl. destruct (nf _ _); exact Hloop.
  - exact Hloop.
Qed.

(** One turn notifies no sale. *)
Lemma cycle_never_sells (t : Trader) :
  never_sold t -> never_sold (fst (cycle f nf fetch t)).
Proof.
  intros Hn.
  destruct (cycle_cases f nf fetch t) as [(e & _ & ->)|[(md & t1 & _ & _ & Hl & ->)|(md & d & _ & Hd & ->)]].
  - exact Hn.
  - destruct Hl as (_ & Hl & _). unfold never_sold. simpl. rewrite Hl. exact Hn.
  - apply decided_is_buy_of_one in Hd as (Ha & _ & _ & _).
    set (t0 := log INFO (Text "Making a placeholder trade decision.")
                 (fetched (log INFO (Text "Running trading strategy") t))).
    pose proof (execute_trade_spec f nf t0 d) as (_ & _ & He). cbv zeta in He.
    pose proof (position_sizing_spec f t0 (quantity d) (price d)) as Hs. cbv zeta in Hs.
    destruct (position_sizing f t0 (quantity d) (price d)) as [t1 k|t1|t1 e].
    + destruct He as [(_ & _ & Hnf)|[(Es & _)|(Eb & _)]];
        [|rewrite Ha in Es; discriminate|contradiction].
      cbv zeta in Hnf. intros q i p.
      destruct (nf (notifier t0) _); destruct Hnf as (-> & _); simpl;
        intros Hin; repeat (destruct Hin as [Hin|Hin]; [discriminate|]);
        by apply (Hn q i p).
    + rewrite He. destruct Hs as ((_ & Hl & _) & _). unfold never_sold. simpl.
      rewrite Hl. exact Hn.
    + rewrite He. destruct Hs as ((_ & Hl & _) & _). unfold never_sold. simpl.
      rewrite Hl. exact Hn.
Qed.

(** X13.  The bot never sells: at any fuel, whatever the market API and
    the notifier do, no call on the notifier made by [main] is the
    notification of a sale. *)
Theorem bot_never_sells (fuel : nat) :
  never_sold (fst (main f nf fetch B fuel)).
Proof.
  assert (Hloop : forall n t, never_sold t ->
                              never_sold (fst (trading_loop f nf fetch n t))).
  { induction n as [|n IH]; intros t Hn; simpl; [exact Hn|].
    pose proof (cycle_never_sells t Hn) as Hc.
    destruct (cycle f nf fetch t) as [t1 [|e]]; simpl in *; [by apply IH|exact Hc]. }
  assert (H0 : never_sold (initial_trader B)) by (intros q i p []).
  specialize (Hloop fuel _ H0).
  unfold main. destruct (trading_loop f nf fetch fuel (initial_trader B)) as [t1 [e|]];
    simpl in *; [|exact Hloop].
  unfold top_level_handler, send_error_notification, notifier_call. simpl.
  destruct (nf _ _); simpl; intros q i p [Hin|Hin]; try discriminate;
    by apply (Hloop q i p).
Qed.

End LoopProperties.

(** ** Book, log and notifier agree *)

(** X14.  A call either leaves both the book and the notifier as they
    were, or assigns the book with a quantity k, has the log line of
    that trade, and has called the notifier with that trade first; the
    only call after it is the error notification of the handler, which
    the log then records too.  No trade is notified without being
    booked, and none is booked without the notifier being called. *)
Theorem trade_is_booked_logged_and_notified
    (f : Q) (nf : list notification -> notification -> option exn)
    (t : Trader) (d : trade_decision) :
  let r := execute_trade f nf t (Some d) in
  let id := event_id d in
  (current_positions (fst r) = current_positions t /\
   notifier (fst r) = notifier t) \/
  (exists k,
     booked t (fst r) d k /\
     In (INFO, ExecutingTrade (action d) id (price d) k) (logger (fst r)) /\
     (notifier (fst r) = trade_notification_of d k :: notifier t \/
      exists e,
        notifier (fst r) =
          ErrorNotification (TradeExecutionError id e)
            :: trade_notification_of d k :: notifier t /\
        In (ERROR, ErrorExecutingTrade id e) (logger (fst r)))).
Proof.
  intros r id.
  pose proof (execute_trade_spec f nf t d) as (_ & _ & He). cbv zeta in He.
  fold r id in He.
  pose proof (position_sizing_spec f t (quantity d) (price d)) as Hs. cbv zeta in Hs.
  destruct (position_sizing f t (quantity d) (price d)) as [t1 k|t1|t1 e].
  - destruct Hs as [Hlog _].
    destruct He as [(Ea & Hp & Hn)|[(Ea & Hp & Hn)|(_ & _ & ->)]].
    + right. exists k. split; [left; by split|].
      unfold trade_notification_of. rewrite Ea. simpl. cbv zeta in Hn.
      destruct (nf (notifier t) _) as [e|]; destruct Hn as (Hn & Hl & _); rewrite Hl.
      * split; [right; by left|]. right. exists e. split; [exact Hn|by left].
      * split; [by left|]. by left.
    + right. exists k. split; [right; by split|].
      unfold trade_notification_of. rewrite Ea. simpl. cbv zeta in Hn.
      destruct (nf (notifier t) _) as [e|]; destruct Hn as (Hn & Hl & _); rewrite Hl.
      * split; [right; by left|]. right. exists e. split; [exact Hn|by left].
      * split; [by left|]. by left.
    + left. simpl. split; apply Hlog.
  - left. rewrite He. simpl. split; apply Hs.
  - left. rewrite He. simpl. split; apply Hs.
Qed.

(** The placeholder analyses write their log line and nothing else; the
    two that return a decision return none. *)
Lemma placeholder_analyses_only_log {A : Type} (t : Trader) (x : A) :
  logged_only t (fst (_news_sentiment_analysis t x)) /\
  logged_only t (fst (_statistical_arbitrage t x)) /\
  logged_only t (fst (_volatility_analysis t x)) /\
  snd (_statistical_arbitrage t x) = None /\
  snd (_volatility_analysis t x) = None.
Proof. repeat split. Qed.

(** ** Further concrete runs *)

Section MoreRuns.

Import Scenarios.

Ltac compute_it :=
  first [ reflexivity
        | vm_compute; reflexivity
        | vm_compute; discriminate
        | vm_compute; intros; discriminate ].

(** A delivering notifier and one that is down leave the same book. *)
Lemma book_independent_of_notifier_witness :
  let d := Some (order "buy" 300 (1 # 2)) in
  current_positions (fst (execute_trade tenth quiet (fresh 1000) d)) =
    current_positions (fst (execute_trade tenth down (log INFO (Text "x") (fresh 1000)) d)).
Proof.
  intros d.
  apply (book_independent_of_notifier tenth quiet down (fresh 1000)
           (log INFO (Text "x") (fresh 1000)) d); reflexivity.
Defined.


(** Selling 20 out of a position of 5 leaves -15. *)
Lemma trades_cancel_from_any_position_witness :
  let t := set_position "TEST_EVENT" 5 (fresh 1000) in
  get_position (fst (execute_trade tenth quiet t (Some (order "sell" 20 (1 # 2)))))
    "TEST_EVENT" = -15.
Proof.
  intros t.
  destruct (trades_cancel_from_any_position tenth quiet t "TEST_EVENT" 20 (1 # 2))
    as (H & _); [compute_it|exact H].
Defined.


(** A snapshot whose only record has no price: nothing happens. *)
Lemma strategy_without_opportunity_witness :
  let r := run_trading_strategy tenth quiet
             (steady (one_market (Some "M") None)) (fresh 1000) in
  snd r = Returned /\ current_positions (fst r) = ∅ /\ notifier (fst r) = [].
Proof.
  intros r.
  destruct (strategy_without_opportunity tenth quiet
              (steady (one_market (Some "M") None)) (fresh 1000)
              (one_market (Some "M") None))
    as (H1 & _ & H2 & _ & H3 & _); [compute_it..|].
  repeat split; assumption.
Defined.




(** Three turns at 65 each against a limit of 100 a trade: three units,
    195 in all. *)
Lemma loop_accumulates_position_witness :
  exists t',
    trading_loop tenth quiet (steady (one_market (Some "TEST_MARKET") (Some (65 # 1))))
      3 (fresh 1000) = (t', None) /\
    get_position t' "TEST_MARKET" = 3.
Proof.
  destruct (loop_accumulates_position tenth quiet
              (steady (one_market (Some "TEST_MARKET") (Some (65 # 1))))
              {| Market.id := Some "TEST_MARKET"; Market.current_price := Some (65 # 1) |}
              [] "TEST_MARKET" (65 # 1) 3 (fresh 1000))
    as (t' & Hl & Hg & _);
    [intros i; eexists; split; reflexivity|compute_it..|].
  exists t'. split; [exact Hl|exact Hg].
Defined.

(** After an outage on the third fetch, the position is within 0 and 3. *)
Lemma positions_bounded_by_fetches_witness :
  let t := fst (main tenth flaky (outage_after 2) 1000 5) in
  bankroll t = 1000%Q /\ 0 <= get_position t "TEST_MARKET" <= Z.of_nat (api t).
Proof.
  apply (positions_bounded_by_fetches tenth flaky (outage_after 2) 1000 5 "TEST_MARKET").
  compute_it.
Defined.

End MoreRuns.
